(** * pygmt.src.grdlandmask: the wrapper around GMT's [grdlandmask] module

    A shallow embedding of [src/pygmt/src/grdlandmask.py].  The function body
    is embedded as it is written: the keyword arguments are a dictionary with
    string keys, the two [with] blocks are scoped resources whose [__exit__]
    runs on every path, and every interaction with the outside (the temporary
    file, the GMT session, the module dispatcher, xarray) is recorded in a
    trace and answered by an oracle, the [World].

    The decorators ([fmt_docstring], [use_alias], [kwargs_to_strings]) live in
    [pygmt.helpers]; the embedding starts where the body starts, with the
    dictionary [kwargs] the body receives. *)

From Stdlib Require Import Sorted.
From stdpp Require Import base option list strings gmap.

Module Grdlandmask.

(** ** Python values that can be bound in [kwargs] *)

#[local] Set Warnings "-register-all".

Inductive pyval : Type :=
  | PyNone
  | PyBool (b : bool)
  | PyInt (n : Z)
  | PyStr (s : string)
  | PyList (items : list pyval).

(** Python's [==] on these values: [bool] is a subclass of [int], sequences
    compare element by element, values of unrelated types are unequal. *)
Fixpoint py_eq (a b : pyval) : bool :=
  match a, b with
  | PyNone, PyNone => true
  | PyBool x, PyBool y => Z.eqb (Z.b2z x) (Z.b2z y)
  | PyBool x, PyInt y => Z.eqb (Z.b2z x) y
  | PyInt x, PyBool y => Z.eqb x (Z.b2z y)
  | PyInt x, PyInt y => Z.eqb x y
  | PyStr x, PyStr y => String.eqb x y
  | PyList xs, PyList ys =>
      (fix items_eq (l : list pyval) (r : list pyval) {struct l} : bool :=
         match l, r with
         | [], [] => true
         | x :: l', y :: r' => py_eq x y && items_eq l' r'
         | _, _ => false
         end) xs ys
  | _, _ => false
  end.

Section Wrapper.

(** [xarray.DataArray] and the errors of the external libraries are opaque to
    the wrapper: it never inspects either. *)
Context {DataArray ExtError : Type}.

(** [pygmt.helpers.build_arg_string] is not part of this file; the wrapper
    only passes [kwargs] to it and hands the resulting string on. *)
Variable build_arg_string : gmap string pyval → string.

(** ** Exceptions, outcomes and the trace of external interactions *)

Inductive exn : Type :=
  | GMTInvalidInput (msg : string)
  | KeyError (key : string)
  | LibraryError (e : ExtError).

Inductive outcome (A : Type) : Type :=
  | Return (a : A)
  | Raise (e : exn).
Global Arguments Return {A} a.
Global Arguments Raise {A} e.

Inductive event : Type :=
  | EvTmpCreate (name : string)
  | EvTmpRemove (name : string)
  | EvSessionCreate
  | EvSessionDestroy
  | EvCallModule (module : string) (args : string)
  | EvOpenDataArray (path : pyval)
  | EvLoad (d : DataArray)
  | EvGmtAccessor (d : DataArray)
  | EvCloseDataArray (d : DataArray).

(** A computation yields an outcome and the events it caused, in order. *)
Definition Eff (A : Type) : Type := outcome A * list event.

Definition ret {A} (a : A) : Eff A := (Return a, []).
Definition raise {A} (e : exn) : Eff A := (Raise e, []).
Definition emit (ev : event) : Eff unit := (Return tt, [ev]).

Definition bind {A B} (m : Eff A) (k : A → Eff B) : Eff B :=
  match m with
  | (Return a, t) => let '(r, t') := k a in (r, t ++ t')
  | (Raise e, t) => (Raise e, t)
  end.

Global Instance eff_ret : MRet Eff := @ret.
Global Instance eff_bind : MBind Eff := λ A B k m, bind m k.

(** The [with] statement for a context manager whose [__exit__] returns
    [None]: [__exit__] runs whether the body returned or raised, and an
    exception of [__exit__] replaces the one of the body; when [__enter__]
    raises, neither the body nor [__exit__] runs. *)
Definition with_ {R A} (enter : Eff R) (exit : R → Eff unit)
    (body : R → Eff A) : Eff A :=
  r ← enter;
  let '(res, t) := body r in
  match exit r with
  | (Return _, t') => (res, t ++ t')
  | (Raise e, t') => (Raise e, t ++ t')
  end.

(** ** The outside world *)

Record World : Type := {
  (** the part of the name [NamedTemporaryFile] picks before the suffix *)
  tmp_stem : string;
  (** [Session.__enter__] (create), [call_module], [Session.__exit__]
      (destroy): [None] is success *)
  session_create : option ExtError;
  call_module_status : string → string → option ExtError;
  session_destroy : option ExtError;
  (** [xr.open_dataarray], [DataArray.load], the [.gmt] accessor *)
  open_dataarray_result : pyval → ExtError + DataArray;
  load_result : DataArray → ExtError + DataArray;
  gmt_accessor_status : DataArray → option ExtError;
}.

Variable w : World.

Definition attempt (ev : event) (status : option ExtError) : Eff unit :=
  emit ev;;
  match status with
  | None => ret tt
  | Some e => raise (LibraryError e)
  end.

Definition fetch {A} (ev : event) (res : ExtError + A) : Eff A :=
  emit ev;;
  match res with
  | inr a => ret a
  | inl e => raise (LibraryError e)
  end.

(** [GMTTempFile(suffix=...)]: the object only carries its [name]. *)
Record GMTTempFile : Type := { name : string }.

Definition GMTTempFile_enter (suffix : string) : Eff GMTTempFile :=
  let f := {| name := tmp_stem w +:+ suffix |} in
  emit (EvTmpCreate (name f));; ret f.

Definition GMTTempFile_exit (f : GMTTempFile) : Eff unit :=
  emit (EvTmpRemove (name f)).

(** [Session()]: the handle [lib] carries no data of its own. *)
Inductive Session : Type := Lib.

Definition Session_enter : Eff Session :=
  attempt EvSessionCreate (session_create w);; ret Lib.

Definition Session_exit (lib : Session) : Eff unit :=
  attempt EvSessionDestroy (session_destroy w).

Definition call_module (lib : Session) (module args : string) : Eff unit :=
  attempt (EvCallModule module args) (call_module_status w module args).

Definition open_dataarray (path : pyval) : Eff DataArray :=
  fetch (EvOpenDataArray path) (open_dataarray_result w path).

Definition close (d : DataArray) : Eff unit := emit (EvCloseDataArray d).

Definition load (d : DataArray) : Eff DataArray :=
  fetch (EvLoad d) (load_result w d).

Definition gmt (d : DataArray) : Eff unit :=
  attempt (EvGmtAccessor d) (gmt_accessor_status w d).

(** [kwargs[key]] *)
Definition getitem (kwargs : gmap string pyval) (key : string) : Eff pyval :=
  match kwargs !! key with
  | Some v => ret v
  | None => raise (KeyError key)
  end.

(** ** The function *)

Definition grdlandmask (kwargs : gmap string pyval) : Eff (option DataArray) :=
  if bool_decide (kwargs !! "I" = None) || bool_decide (kwargs !! "R" = None)
  then raise (GMTInvalidInput "Both 'region' and 'spacing' must be specified.")
  else
    with_ (GMTTempFile_enter ".nc") GMTTempFile_exit (λ tmpfile,
      outgrid ← with_ Session_enter Session_exit (λ lib,
        let kwargs :=
          if bool_decide (kwargs !! "G" = None)
          then <["G" := PyStr (name tmpfile)]> kwargs
          else kwargs in
        outgrid ← getitem kwargs "G";
        let arg_str := build_arg_string kwargs in
        call_module lib "grdlandmask" arg_str;;
        ret outgrid);
      if py_eq outgrid (PyStr (name tmpfile))
      then
        with_ (open_dataarray outgrid) close (λ dataarray,
          result ← load dataarray;
          gmt result;;
          ret (Some result))
      else ret None).

End Wrapper.

Arguments exn : clear implicits.
Arguments event : clear implicits.
Arguments Eff : clear implicits.
Arguments World : clear implicits.

(** ** Vocabulary of the properties *)

(** The name of the temporary file of a call: [GMTTempFile(suffix=".nc")]. *)
Definition tmp_name {DataArray ExtError} (w : World DataArray ExtError) : string :=
  tmp_stem w +:+ ".nc".

(** The test of line 78 passes: both required keys are present. *)
Definition validated (kwargs : gmap string pyval) : Prop :=
  is_Some (kwargs !! "I") ∧ is_Some (kwargs !! "R").

Definition required_missing (kwargs : gmap string pyval) : Prop :=
  kwargs !! "I" = None ∨ kwargs !! "R" = None.

(** [kwargs] as it stands when the argument string is built. *)
Definition effective_kwargs {DataArray ExtError}
    (w : World DataArray ExtError) (kwargs : gmap string pyval) : gmap string pyval :=
  match kwargs !! "G" with
  | None => <["G" := PyStr (tmp_name w)]> kwargs
  | Some _ => kwargs
  end.

(** The value of the local variable [outgrid]. *)
Definition effective_outgrid {DataArray ExtError}
    (w : World DataArray ExtError) (kwargs : gmap string pyval) : pyval :=
  default (PyStr (tmp_name w)) (kwargs !! "G").

Definition is_tmp_event {DataArray} (ev : event DataArray) : bool :=
  match ev with
  | EvTmpCreate _ | EvTmpRemove _ => true
  | _ => false
  end.

(** Events that enter the GMT library through the session. *)
Definition is_engine_event {DataArray} (ev : event DataArray) : bool :=
  match ev with
  | EvSessionCreate | EvSessionDestroy | EvCallModule _ _ => true
  | _ => false
  end.

(** The calls of the module dispatcher in a trace: module name and argument
    string of each, in order. *)
Fixpoint dispatches {DataArray} (t : list (event DataArray)) : list (string * string) :=
  match t with
  | [] => []
  | EvCallModule m a :: t' => (m, a) :: dispatches t'
  | _ :: t' => dispatches t'
  end.

(** The error [e] is one the external libraries reported during the call:
    by the session (create, destroy), by the module dispatcher, or while the
    grid file was opened, loaded or inspected. *)
Definition reported_by_library {DataArray ExtError}
    (w : World DataArray ExtError) (args : string) (e : ExtError) : Prop :=
  session_create w = Some e
  ∨ call_module_status w "grdlandmask" args = Some e
  ∨ session_destroy w = Some e
  ∨ open_dataarray_result w (PyStr (tmp_name w)) = inl e
  ∨ (∃ h, open_dataarray_result w (PyStr (tmp_name w)) = inr h
          ∧ load_result w h = inl e)
  ∨ (∃ h d, open_dataarray_result w (PyStr (tmp_name w)) = inr h
            ∧ load_result w h = inr d
            ∧ gmt_accessor_status w d = Some e).

(** The session opens, the module call succeeds and the session closes. *)
Definition session_succeeds {DataArray ExtError}
    (w : World DataArray ExtError) (args : string) : Prop :=
  session_create w = None
  ∧ call_module_status w "grdlandmask" args = None
  ∧ session_destroy w = None.

(** The temporary grid file opens as [h], loads as [d], and the accessor
    accepts [d]. *)
Definition grid_loads {DataArray ExtError}
    (w : World DataArray ExtError) (h d : DataArray) : Prop :=
  open_dataarray_result w (PyStr (tmp_name w)) = inr h
  ∧ load_result w h = inr d
  ∧ gmt_accessor_status w d = None.

(** ** Concrete instances, to run the model *)

(** A stand-in for [build_arg_string] on the options this wrapper declares,
    in sorted order: a string value gives [-Kvalue], [True] gives [-K], other
    values give nothing.  The properties below hold for any function in its
    place; this one only serves to evaluate concrete calls. *)
Definition sample_build_arg_string (kwargs : gmap string pyval) : string :=
  String.concat " "
    (omap (λ key,
       match kwargs !! key with
       | Some (PyStr s) => Some ("-" +:+ key +:+ s)
       | Some (PyBool true) => Some ("-" +:+ key)
       | _ => None
       end)
     ["A"; "D"; "E"; "G"; "I"; "N"; "R"; "V"; "r"]).

(** A world in which every external call succeeds; a grid is a list of node
    values, an error is its message. *)
Definition calm_world : World (list Z) string := {|
  tmp_stem := "/tmp/pygmt-k3v9x2ab";
  session_create := None;
  call_module_status := λ _ _, None;
  session_destroy := None;
  open_dataarray_result := λ _, inr [];
  load_result := λ _, inr [0; 1; 1; 0]%Z;
  gmt_accessor_status := λ _, None;
|}.

(** A world in which no session can be created. *)
Definition no_session_world : World (list Z) string := {|
  tmp_stem := "/tmp/pygmt-k3v9x2ab";
  session_create := Some "GMTCLibError: Failed to create a GMT API session";
  call_module_status := λ _ _, None;
  session_destroy := None;
  open_dataarray_result := λ _, inr [];
  load_result := λ _, inr [0; 1; 1; 0]%Z;
  gmt_accessor_status := λ _, None;
|}.

(** A world in which the module call fails. *)
Definition failing_module_world : World (list Z) string := {|
  tmp_stem := "/tmp/pygmt-k3v9x2ab";
  session_create := None;
  call_module_status := λ _ _, Some "GMTCLibError: Module 'grdlandmask' failed";
  session_destroy := None;
  open_dataarray_result := λ _, inr [];
  load_result := λ _, inr [0; 1; 1; 0]%Z;
  gmt_accessor_status := λ _, None;
|}.

Definition kwargs_IR : gmap string pyval :=
  <["I" := PyStr "1"]> (<["R" := PyStr "125/130/30/35"]> ∅).

Definition kwargs_I_only : gmap string pyval :=
  <["I" := PyStr "1"]> ∅.

(** Both required keys bound to [None]. *)
Definition kwargs_IR_none : gmap string pyval :=
  <["I" := PyNone]> (<["R" := PyNone]> ∅).

Definition kwargs_G_file : gmap string pyval :=
  <["G" := PyStr "mask.nc"]> kwargs_IR.

(** [outgrid] set by the caller to the very name the temporary file gets. *)
Definition kwargs_G_tmp : gmap string pyval :=
  <["G" := PyStr "/tmp/pygmt-k3v9x2ab.nc"]> kwargs_IR.

Definition kwargs_G_none : gmap string pyval :=
  <["G" := PyNone]> kwargs_IR.

(** The wrapper with the stand-in for [build_arg_string]. *)
Definition sample {DataArray ExtError} (w : World DataArray ExtError)
    (kwargs : gmap string pyval) : Eff DataArray ExtError (option DataArray) :=
  grdlandmask sample_build_arg_string w kwargs.

(** ** Further vocabulary: the phases of a call *)

(** Events of xarray on the grid file. *)
Definition is_grid_event {DataArray} (ev : event DataArray) : bool :=
  match ev with
  | EvOpenDataArray _ | EvLoad _ | EvGmtAccessor _ | EvCloseDataArray _ => true
  | _ => false
  end.


(** The external operation an event is a call of, whatever its arguments. *)
Inductive operation : Type :=
  | OpTmpCreate
  | OpTmpRemove
  | OpSessionCreate
  | OpSessionDestroy
  | OpCallModule
  | OpOpenDataArray
  | OpLoad
  | OpGmtAccessor
  | OpCloseDataArray.

Definition operation_of {DataArray} (ev : event DataArray) : operation :=
  match ev with
  | EvTmpCreate _ => OpTmpCreate
  | EvTmpRemove _ => OpTmpRemove
  | EvSessionCreate => OpSessionCreate
  | EvSessionDestroy => OpSessionDestroy
  | EvCallModule _ _ => OpCallModule
  | EvOpenDataArray _ => OpOpenDataArray
  | EvLoad _ => OpLoad
  | EvGmtAccessor _ => OpGmtAccessor
  | EvCloseDataArray _ => OpCloseDataArray
  end.

(** A world in which the module call fails and then the session cannot be
    destroyed either. *)
Definition failing_destroy_world : World (list Z) string := {|
  tmp_stem := "/tmp/pygmt-k3v9x2ab";
  session_create := None;
  call_module_status := λ _ _, Some "GMTCLibError: Module 'grdlandmask' failed";
  session_destroy := Some "GMTCLibError: Failed to destroy GMT API session";
  open_dataarray_result := λ _, inr [];
  load_result := λ _, inr [0; 1; 1; 0]%Z;
  gmt_accessor_status := λ _, None;
|}.

(** A world in which the grid file opens but cannot be loaded. *)
Definition failing_load_world : World (list Z) string := {|
  tmp_stem := "/tmp/pygmt-k3v9x2ab";
  session_create := None;
  call_module_status := λ _ _, None;
  session_destroy := None;
  open_dataarray_result := λ _, inr [7]%Z;
  load_result := λ _, inl "ValueError: could not read grid";
  gmt_accessor_status := λ _, None;
|}.

(** ** Properties *)

Section Properties.

Context {DataArray ExtError : Type}.
Variable build_arg_string : gmap string pyval → string.
Variable w : World DataArray ExtError.

Implicit Types (kwargs : gmap string pyval) (v : pyval).

Local Abbreviation run kwargs := (grdlandmask build_arg_string w kwargs).

Ltac unfold_calls :=
  unfold Session_enter, Session_exit, call_module, open_dataarray, close,
    load, gmt, getitem, attempt, fetch, emit;
  unfold with_, mbind, eff_bind, mret, eff_ret, bind, ret, raise.

(** *** Python equality against a string *)

Lemma py_eq_PyStr v s : py_eq v (PyStr s) = true ↔ v = PyStr s.
Proof.
  destruct v; simpl; try (split; [discriminate | congruence]).
  rewrite String.eqb_eq. split; congruence.
Qed.

Lemma py_eq_PyStr_false v s : py_eq v (PyStr s) = false ↔ v ≠ PyStr s.
Proof.
  rewrite <- py_eq_PyStr. destruct (py_eq v (PyStr s)); split; congruence.
Qed.

(** *** The guard of line 78 *)

Lemma guard_validated kwargs :
  validated kwargs →
  bool_decide (kwargs !! "I" = None) || bool_decide (kwargs !! "R" = None) = false.
Proof.
  intros [[i Hi] [r Hr]]. rewrite Hi, Hr. reflexivity.
Qed.

Lemma guard_missing kwargs :
  required_missing kwargs →
  bool_decide (kwargs !! "I" = None) || bool_decide (kwargs !! "R" = None) = true.
Proof.
  intros [H | H]; rewrite H; simpl; [reflexivity | apply orb_true_r].
Qed.

Lemma validated_or_missing kwargs : validated kwargs ∨ required_missing kwargs.
Proof.
  unfold validated, required_missing.
  destruct (kwargs !! "I"), (kwargs !! "R"); eauto.
Qed.

(** *** The [with] statement *)

Lemma with_enter_raise {R A} (exit : R → Eff DataArray ExtError unit)
    (body : R → Eff DataArray ExtError A) e t :
  with_ (Raise e, t) exit body = (Raise e, t).
Proof. reflexivity. Qed.

(** Once [__enter__] has returned, the events of [__exit__] close the trace,
    whatever the body did. *)
Lemma with_events {R A} (exit : R → Eff DataArray ExtError unit)
    (body : R → Eff DataArray ExtError A) r t :
  (with_ (Return r, t) exit body).2 = t ++ (body r).2 ++ (exit r).2.
Proof.
  unfold with_, mbind, eff_bind, bind.
  destruct (body r) as [res tb], (exit r) as [[[]|e] te]; reflexivity.
Qed.

(** The outcome is the body's unless [__exit__] raises. *)
Lemma with_outcome {R A} (exit : R → Eff DataArray ExtError unit)
    (body : R → Eff DataArray ExtError A) r t :
  (with_ (Return r, t) exit body).1 =
    match (exit r).1 with
    | Return _ => (body r).1
    | Raise e => Raise e
    end.
Proof.
  unfold with_, mbind, eff_bind, bind.
  destruct (body r) as [res tb], (exit r) as [[[]|e] te]; reflexivity.
Qed.

(** *** Running the wrapper *)

Lemma GMTTempFile_enter_nc :
  GMTTempFile_enter w ".nc" =
    (Return {| name := tmp_name w |}, [EvTmpCreate (tmp_name w)]).
Proof. reflexivity. Qed.

Lemma effective_kwargs_default kwargs :
  (if bool_decide (kwargs !! "G" = None)
   then <["G" := PyStr (tmp_name w)]> kwargs else kwargs)
  = effective_kwargs w kwargs.
Proof.
  unfold effective_kwargs. destruct (kwargs !! "G"); reflexivity.
Qed.

Lemma effective_kwargs_lookup kwargs :
  effective_kwargs w kwargs !! "G" = Some (effective_outgrid w kwargs).
Proof.
  unfold effective_kwargs, effective_outgrid.
  destruct (kwargs !! "G") eqn:HG; simpl; [exact HG | apply lookup_insert_eq].
Qed.

(** The paths of a validated call, one per answer of the outside world. *)
Lemma run_validated kwargs :
  validated kwargs →
  run kwargs =
    let t := tmp_name w in
    let args := build_arg_string (effective_kwargs w kwargs) in
    let session := [EvSessionCreate; EvCallModule "grdlandmask" args; EvSessionDestroy] in
    match session_create w with
    | Some e => (Raise (LibraryError e), [EvTmpCreate t; EvSessionCreate; EvTmpRemove t])
    | None =>
      match session_destroy w, call_module_status w "grdlandmask" args with
      | Some e, _ | None, Some e =>
          (Raise (LibraryError e), EvTmpCreate t :: session ++ [EvTmpRemove t])
      | None, None =>
        if py_eq (effective_outgrid w kwargs) (PyStr t)
        then
          match open_dataarray_result w (PyStr t) with
          | inl e =>
              (Raise (LibraryError e),
               EvTmpCreate t :: session ++ [EvOpenDataArray (PyStr t); EvTmpRemove t])
          | inr h =>
            match load_result w h with
            | inl e =>
                (Raise (LibraryError e),
                 EvTmpCreate t :: session ++
                   [EvOpenDataArray (PyStr t); EvLoad h; EvCloseDataArray h;
                    EvTmpRemove t])
            | inr d =>
                (match gmt_accessor_status w d with
                 | Some e => Raise (LibraryError e)
                 | None => Return (Some d)
                 end,
                 EvTmpCreate t :: session ++
                   [EvOpenDataArray (PyStr t); EvLoad h; EvGmtAccessor d;
                    EvCloseDataArray h; EvTmpRemove t])
            end
          end
        else (Return None, EvTmpCreate t :: session ++ [EvTmpRemove t])
      end
    end.
Proof.
  intros Hv. unfold grdlandmask. rewrite (guard_validated _ Hv).
  rewrite GMTTempFile_enter_nc. unfold_calls. cbn [name].
  rewrite !effective_kwargs_default, effective_kwargs_lookup.
  destruct (session_create w); [reflexivity |].
  destruct (call_module_status w _ _), (session_destroy w); try reflexivity.
  cbn. destruct (py_eq _ _) eqn:Heq; [| reflexivity].
  apply py_eq_PyStr in Heq. rewrite Heq.
  destruct (open_dataarray_result w _) as [e | h]; [reflexivity |].
  cbn. destruct (load_result w h) as [e | d]; [reflexivity |].
  cbn. destruct (gmt_accessor_status w d); reflexivity.
Qed.

(** An exception that leaves a validated call is one the libraries reported. *)
Lemma raise_is_library_error kwargs x :
  validated kwargs →
  (run kwargs).1 = Raise x →
  ∃ e, x = LibraryError e
       ∧ reported_by_library w (build_arg_string (effective_kwargs w kwargs)) e.
Proof.
  intros Hv. rewrite (run_validated _ Hv). unfold reported_by_library. cbn zeta.
  repeat case_match; cbn; intros; simplify_eq; eauto 12.
Qed.

(** A validated call that returns gives a [DataArray] exactly when the value
    of [outgrid] is the temporary file's name. *)
Lemma returns_dataarray_iff kwargs r :
  validated kwargs →
  (run kwargs).1 = Return r →
  (is_Some r ↔ effective_outgrid w kwargs = PyStr (tmp_name w)).
Proof.
  intros Hv. rewrite (run_validated _ Hv). cbn zeta.
  destruct (py_eq _ _) eqn:Heq;
    [apply py_eq_PyStr in Heq | apply py_eq_PyStr_false in Heq];
    repeat case_match; cbn; intros Hr; simplify_eq.
  - split; eauto.
  - split; [intros [? [=]] | intros; contradiction].
Qed.

(** The whole trace of a call that returns a [DataArray]. *)
Lemma returns_dataarray_trace kwargs d :
  (run kwargs).1 = Return (Some d) →
  ∃ h, open_dataarray_result w (PyStr (tmp_name w)) = inr h
       ∧ load_result w h = inr d
       ∧ (run kwargs).2 =
           [EvTmpCreate (tmp_name w); EvSessionCreate;
            EvCallModule "grdlandmask"
              (build_arg_string (effective_kwargs w kwargs));
            EvSessionDestroy; EvOpenDataArray (PyStr (tmp_name w));
            EvLoad h; EvGmtAccessor d; EvCloseDataArray h;
            EvTmpRemove (tmp_name w)].
Proof.
  destruct (validated_or_missing kwargs) as [Hv | Hm].
  - rewrite (run_validated _ Hv). cbn zeta.
    repeat case_match; cbn; intros Hr; simplify_eq. eauto.
  - unfold grdlandmask. rewrite (guard_missing _ Hm). discriminate.
Qed.

(** *** The validation *)

(** C1: the call raises [GMTInvalidInput] if and only if the key ["I"] or
    the key ["R"] is absent from [kwargs]. *)
Theorem invalid_input_iff_required_missing kwargs :
  (∃ msg, (run kwargs).1 = Raise (GMTInvalidInput msg)) ↔ required_missing kwargs.
Proof.
  split.
  - intros [msg Hr]. destruct (validated_or_missing kwargs) as [Hv | Hm]; [| exact Hm].
    destruct (raise_is_library_error _ _ Hv Hr) as (e & He & _). discriminate He.
  - intros Hm. eexists. unfold grdlandmask. rewrite (guard_missing _ Hm). reflexivity.
Qed.

(** C5: when ["I"] or ["R"] is missing the call raises the invalid-input
    error with an empty trace: no temporary file, no session, no library
    call. *)
Theorem validation_precedes_effects kwargs :
  required_missing kwargs →
  run kwargs =
    (Raise (GMTInvalidInput "Both 'region' and 'spacing' must be specified."), []).
Proof.
  intros Hm. unfold grdlandmask. rewrite (guard_missing _ Hm). reflexivity.
Qed.

(** C8: the validation looks at the presence of ["I"] and ["R"] only.
    Whatever the two keys are bound to, the invalid-input error is not
    raised, the temporary file is created and the session with the engine is
    entered next; once the session is open the dispatcher is called. *)
Theorem validation_checks_presence_only kwargs vi vr :
  kwargs !! "I" = Some vi →
  kwargs !! "R" = Some vr →
  (∀ msg, (run kwargs).1 ≠ Raise (GMTInvalidInput msg))
  ∧ (∃ rest, (run kwargs).2 = EvTmpCreate (tmp_name w) :: EvSessionCreate :: rest)
  ∧ (session_create w = None →
     dispatches (run kwargs).2 =
       [("grdlandmask", build_arg_string (effective_kwargs w kwargs))]).
Proof.
  intros Hi Hr.
  assert (Hv : validated kwargs) by (split; eauto).
  split; [| split].
  - intros msg Hx. destruct (raise_is_library_error _ _ Hv Hx) as (e & He & _).
    discriminate He.
  - rewrite (run_validated _ Hv). cbn zeta.
    repeat case_match; eexists; reflexivity.
  - intros Hc. rewrite (run_validated _ Hv), Hc. cbn zeta.
    repeat case_match; reflexivity.
Qed.

(** *** The temporary file *)

(** C6: on every path of a validated call, whether [outgrid] was supplied or
    not and whether the library calls succeed or raise, the trace opens with
    the creation of the temporary file and closes with its removal, and
    nothing in between touches it. *)
Theorem tmpfile_scoped kwargs :
  validated kwargs →
  ∃ mid, (run kwargs).2 =
           EvTmpCreate (tmp_name w) :: mid ++ [EvTmpRemove (tmp_name w)]
         ∧ forallb (λ ev, negb (is_tmp_event ev)) mid = true.
Proof.
  intros Hv. unfold grdlandmask. rewrite (guard_validated _ Hv).
  rewrite GMTTempFile_enter_nc, with_events.
  eexists. split; [reflexivity |].
  unfold_calls. cbn [name]. repeat (case_match; simplify_eq/=); reflexivity.
Qed.


(** *** The call of the dispatcher *)

(** C3, amended: on a validated call whose session opens, the dispatcher is
    called exactly once, with module ["grdlandmask"] and the argument string
    built from [kwargs] after the default [outgrid] has been inserted, and
    the session is entered and left around that one call; when the session
    cannot be opened the dispatcher is not called. *)
Theorem dispatcher_called_once kwargs :
  validated kwargs →
  let args := build_arg_string (effective_kwargs w kwargs) in
  dispatches (run kwargs).2 =
    match session_create w with
    | None => [("grdlandmask", args)]
    | Some _ => []
    end
  ∧ List.filter is_engine_event (run kwargs).2 =
    match session_create w with
    | None => [EvSessionCreate; EvCallModule "grdlandmask" args; EvSessionDestroy]
    | Some _ => [EvSessionCreate]
    end.
Proof.
  intros Hv args. rewrite (run_validated _ Hv). fold args. cbn zeta.
  repeat case_match; split; reflexivity.
Qed.

(** *** Errors *)

(** C7: an exception that leaves a validated call is an error of the
    external libraries, as reported by the session, the module dispatcher
    or the loading of the grid file, and it is passed on as it is. *)
Theorem only_library_errors kwargs x :
  validated kwargs →
  (run kwargs).1 = Raise x →
  ∃ e, x = LibraryError e
       ∧ reported_by_library w (build_arg_string (effective_kwargs w kwargs)) e.
Proof.
  intros Hv Hx. exact (raise_is_library_error _ _ Hv Hx).
Qed.

(** *** The return value *)

(** C9: the branch is taken on equality between the value of [outgrid] and
    the temporary file's name.  A caller who binds ["G"] to that very name
    gets the [DataArray]; a caller who binds ["G"] to [None] gets [None],
    and the argument string is built from the [kwargs] as they were
    passed. *)
Theorem outgrid_branch_by_name_equality kwargs :
  validated kwargs →
  (∀ r, (run kwargs).1 = Return r →
        (is_Some r ↔ effective_outgrid w kwargs = PyStr (tmp_name w)))
  ∧ (kwargs !! "G" = Some (PyStr (tmp_name w)) →
     session_succeeds w (build_arg_string kwargs) →
     ∀ h d, grid_loads w h d → (run kwargs).1 = Return (Some d))
  ∧ (kwargs !! "G" = Some PyNone →
     session_succeeds w (build_arg_string kwargs) →
     run kwargs =
       (Return None,
        [EvTmpCreate (tmp_name w); EvSessionCreate;
         EvCallModule "grdlandmask" (build_arg_string kwargs);
         EvSessionDestroy; EvTmpRemove (tmp_name w)])).
Proof.
  intros Hv. split; [| split].
  - intros r Hr. exact (returns_dataarray_iff _ _ Hv Hr).
  - intros HG (Hc & Hm & Hd) h d (Ho & Hl & Ha).
    assert (Hk : effective_kwargs w kwargs = kwargs)
      by (unfold effective_kwargs; rewrite HG; reflexivity).
    assert (Hg : effective_outgrid w kwargs = PyStr (tmp_name w))
      by (unfold effective_outgrid; rewrite HG; reflexivity).
    rewrite (run_validated _ Hv), Hk, Hg. cbn zeta. rewrite Hc, Hm, Hd.
    rewrite (proj2 (py_eq_PyStr _ _) eq_refl), Ho, Hl, Ha. reflexivity.
  - intros HG (Hc & Hm & Hd).
    assert (Hk : effective_kwargs w kwargs = kwargs)
      by (unfold effective_kwargs; rewrite HG; reflexivity).
    assert (Hg : effective_outgrid w kwargs = PyNone)
      by (unfold effective_outgrid; rewrite HG; reflexivity).
    rewrite (run_validated _ Hv), Hk, Hg. cbn zeta. rewrite Hc, Hm, Hd.
    reflexivity.
Qed.

(** C10: when a [DataArray] is returned it is the one [load] returned, and
    the trace of the call shows the grid being loaded and its file closed
    before the temporary file is removed. *)
Theorem dataarray_loaded_before_release kwargs d :
  (run kwargs).1 = Return (Some d) →
  ∃ h, open_dataarray_result w (PyStr (tmp_name w)) = inr h
       ∧ load_result w h = inr d
       ∧ (run kwargs).2 =
           [EvTmpCreate (tmp_name w); EvSessionCreate;
            EvCallModule "grdlandmask"
              (build_arg_string (effective_kwargs w kwargs));
            EvSessionDestroy; EvOpenDataArray (PyStr (tmp_name w));
            EvLoad h; EvGmtAccessor d; EvCloseDataArray h;
            EvTmpRemove (tmp_name w)].
Proof.
  intros Hr. exact (returns_dataarray_trace _ _ Hr).
Qed.

End Properties.

(** ** The model on concrete calls *)

Lemma validated_kwargs_IR : validated kwargs_IR.
Proof. split; eexists; reflexivity. Defined.

Lemma validated_kwargs_G_file : validated kwargs_G_file.
Proof. split; eexists; reflexivity. Defined.

Lemma validated_kwargs_G_tmp : validated kwargs_G_tmp.
Proof. split; eexists; reflexivity. Defined.

Lemma validated_kwargs_G_none : validated kwargs_G_none.
Proof. split; eexists; reflexivity. Defined.

Example run_default_outgrid :
  sample calm_world kwargs_IR =
    (Return (Some [0; 1; 1; 0]%Z),
     [EvTmpCreate "/tmp/pygmt-k3v9x2ab.nc"; EvSessionCreate;
      EvCallModule "grdlandmask" "-G/tmp/pygmt-k3v9x2ab.nc -I1 -R125/130/30/35";
      EvSessionDestroy; EvOpenDataArray (PyStr "/tmp/pygmt-k3v9x2ab.nc");
      EvLoad []; EvGmtAccessor [0; 1; 1; 0]%Z; EvCloseDataArray [];
      EvTmpRemove "/tmp/pygmt-k3v9x2ab.nc"]).
Proof. reflexivity. Qed.

Example run_outgrid_file :
  sample calm_world kwargs_G_file =
    (Return None,
     [EvTmpCreate "/tmp/pygmt-k3v9x2ab.nc"; EvSessionCreate;
      EvCallModule "grdlandmask" "-Gmask.nc -I1 -R125/130/30/35";
      EvSessionDestroy; EvTmpRemove "/tmp/pygmt-k3v9x2ab.nc"]).
Proof. reflexivity. Qed.

Example run_module_fails :
  sample failing_module_world kwargs_G_file =
    (Raise (LibraryError "GMTCLibError: Module 'grdlandmask' failed"),
     [EvTmpCreate "/tmp/pygmt-k3v9x2ab.nc"; EvSessionCreate;
      EvCallModule "grdlandmask" "-Gmask.nc -I1 -R125/130/30/35";
      EvSessionDestroy; EvTmpRemove "/tmp/pygmt-k3v9x2ab.nc"]).
Proof. reflexivity. Qed.

(** C2: the docstring promises [None] whenever [outgrid] is set.  Here
    [outgrid] is set, to the very name the temporary file of the call gets,
    every library call succeeds, and the call returns a [DataArray]: the
    test of line 89 compares names instead of recording whether the caller
    had set [outgrid]. *)
Lemma outgrid_set_but_dataarray_returned :
  validated kwargs_G_tmp
  ∧ kwargs_G_tmp !! "G" = Some (PyStr "/tmp/pygmt-k3v9x2ab.nc")
  ∧ (sample calm_world kwargs_G_tmp).1 = Return (Some [0; 1; 1; 0]%Z)
  ∧ (sample calm_world kwargs_G_tmp).1 ≠ Return None.
Proof.
  split; [exact validated_kwargs_G_tmp |].
  split; [reflexivity |]. split; [reflexivity | discriminate].
Qed.

(** C3, as stated, fails: the call is validated, the session cannot be
    created, and the dispatcher is not called at all. *)
Lemma no_dispatch_without_session :
  validated kwargs_IR
  ∧ dispatches (sample no_session_world kwargs_IR).2 = []
  ∧ length (dispatches (sample no_session_world kwargs_IR).2) ≠ 1.
Proof.
  split; [exact validated_kwargs_IR |].
  split; [reflexivity | discriminate].
Qed.

Lemma validation_precedes_effects_witness :
  required_missing kwargs_I_only
  ∧ sample calm_world kwargs_I_only =
      (Raise (GMTInvalidInput "Both 'region' and 'spacing' must be specified."), []).
Proof.
  assert (Hm : required_missing kwargs_I_only) by (right; reflexivity).
  split; [exact Hm |].
  exact (validation_precedes_effects sample_build_arg_string calm_world
           kwargs_I_only Hm).
Defined.

Lemma validation_checks_presence_only_witness :
  kwargs_IR_none !! "I" = Some PyNone
  ∧ kwargs_IR_none !! "R" = Some PyNone
  ∧ (∀ msg, (sample calm_world kwargs_IR_none).1 ≠ Raise (GMTInvalidInput msg))
  ∧ dispatches (sample calm_world kwargs_IR_none).2 =
      [("grdlandmask", "-G/tmp/pygmt-k3v9x2ab.nc")].
Proof.
  assert (Hi : kwargs_IR_none !! "I" = Some PyNone) by reflexivity.
  assert (Hr : kwargs_IR_none !! "R" = Some PyNone) by reflexivity.
  destruct (validation_checks_presence_only sample_build_arg_string calm_world
              kwargs_IR_none PyNone PyNone Hi Hr) as (Hno & _ & Hcall).
  split; [exact Hi |]. split; [exact Hr |]. split; [exact Hno |].
  exact (Hcall eq_refl).
Defined.

(** The caller supplied [outgrid] and the module call raises: the temporary
    file is created and removed all the same. *)
Lemma tmpfile_scoped_witness :
  validated kwargs_G_file
  ∧ ∃ mid, (sample failing_module_world kwargs_G_file).2 =
             EvTmpCreate "/tmp/pygmt-k3v9x2ab.nc" :: mid
               ++ [EvTmpRemove "/tmp/pygmt-k3v9x2ab.nc"]
           ∧ forallb (λ ev, negb (is_tmp_event ev)) mid = true.
Proof.
  split; [exact validated_kwargs_G_file |].
  exact (tmpfile_scoped sample_build_arg_string failing_module_world
           kwargs_G_file validated_kwargs_G_file).
Defined.


Lemma dispatcher_called_once_witness :
  validated kwargs_G_file
  ∧ dispatches (sample calm_world kwargs_G_file).2 =
      [("grdlandmask", "-Gmask.nc -I1 -R125/130/30/35")]
  ∧ List.filter is_engine_event (sample calm_world kwargs_G_file).2 =
      [EvSessionCreate;
       EvCallModule "grdlandmask" "-Gmask.nc -I1 -R125/130/30/35";
       EvSessionDestroy].
Proof.
  split; [exact validated_kwargs_G_file |].
  exact (dispatcher_called_once sample_build_arg_string calm_world
           kwargs_G_file validated_kwargs_G_file).
Defined.

Lemma only_library_errors_witness :
  validated kwargs_IR
  ∧ (sample failing_module_world kwargs_IR).1 =
      Raise (LibraryError "GMTCLibError: Module 'grdlandmask' failed")
  ∧ ∃ e, LibraryError "GMTCLibError: Module 'grdlandmask' failed" = LibraryError e
         ∧ reported_by_library failing_module_world
             (sample_build_arg_string (effective_kwargs failing_module_world kwargs_IR)) e.
Proof.
  assert (Hx : (sample failing_module_world kwargs_IR).1 =
               Raise (LibraryError "GMTCLibError: Module 'grdlandmask' failed"))
    by reflexivity.
  split; [exact validated_kwargs_IR |]. split; [exact Hx |].
  exact (only_library_errors sample_build_arg_string failing_module_world
           kwargs_IR _ validated_kwargs_IR Hx).
Defined.

Lemma outgrid_branch_by_name_equality_witness :
  validated kwargs_G_tmp
  ∧ validated kwargs_G_none
  ∧ (sample calm_world kwargs_G_tmp).1 = Return (Some [0; 1; 1; 0]%Z)
  ∧ sample calm_world kwargs_G_none =
      (Return None,
       [EvTmpCreate "/tmp/pygmt-k3v9x2ab.nc"; EvSessionCreate;
        EvCallModule "grdlandmask" "-I1 -R125/130/30/35";
        EvSessionDestroy; EvTmpRemove "/tmp/pygmt-k3v9x2ab.nc"]).
Proof.
  split; [exact validated_kwargs_G_tmp |].
  split; [exact validated_kwargs_G_none |].
  split.
  - refine (proj1 (proj2 (outgrid_branch_by_name_equality sample_build_arg_string
                            calm_world kwargs_G_tmp validated_kwargs_G_tmp))
              _ _ [] [0; 1; 1; 0]%Z _).
    + reflexivity.
    + repeat split.
    + repeat split.
  - refine (proj2 (proj2 (outgrid_branch_by_name_equality sample_build_arg_string
                            calm_world kwargs_G_none validated_kwargs_G_none))
              _ _).
    + reflexivity.
    + repeat split.
Defined.

Lemma dataarray_loaded_before_release_witness :
  (sample calm_world kwargs_IR).1 = Return (Some [0; 1; 1; 0]%Z)
  ∧ ∃ h, open_dataarray_result calm_world (PyStr (tmp_name calm_world)) = inr h
         ∧ load_result calm_world h = inr [0; 1; 1; 0]%Z
         ∧ (sample calm_world kwargs_IR).2 =
             [EvTmpCreate (tmp_name calm_world); EvSessionCreate;
              EvCallModule "grdlandmask"
                (sample_build_arg_string (effective_kwargs calm_world kwargs_IR));
              EvSessionDestroy; EvOpenDataArray (PyStr (tmp_name calm_world));
              EvLoad h; EvGmtAccessor [0; 1; 1; 0]%Z; EvCloseDataArray h;
              EvTmpRemove (tmp_name calm_world)].
Proof.
  assert (Hr : (sample calm_world kwargs_IR).1 = Return (Some [0; 1; 1; 0]%Z))
    by reflexivity.
  split; [exact Hr |].
  exact (dataarray_loaded_before_release sample_build_arg_string calm_world
           kwargs_IR _ Hr).
Defined.

(** ** Further properties of the body *)

Section Paths.

Context {DataArray ExtError : Type}.
Variable build_arg_string : gmap string pyval → string.
Variable w : World DataArray ExtError.

Implicit Types (kwargs : gmap string pyval) (v : pyval).

Local Abbreviation run kwargs := (grdlandmask build_arg_string w kwargs).

Lemma validated_insert_G kwargs v :
  validated kwargs → validated (<["G" := v]> kwargs).
Proof.
  intros [Hi Hr]. split; rewrite lookup_insert_ne by discriminate; assumption.
Qed.

Lemma run_required_missing kwargs :
  required_missing kwargs → (run kwargs).2 = [] ∧ ∃ x, (run kwargs).1 = Raise x.
Proof.
  intros Hm. unfold grdlandmask. rewrite (guard_missing _ Hm). eauto.
Qed.

Lemma effective_kwargs_present kwargs v :
  kwargs !! "G" = Some v → effective_kwargs w kwargs = kwargs.
Proof. intros HG. unfold effective_kwargs. rewrite HG. reflexivity. Qed.

Lemma effective_outgrid_present kwargs v :
  kwargs !! "G" = Some v → effective_outgrid w kwargs = v.
Proof. intros HG. unfold effective_outgrid. rewrite HG. reflexivity. Qed.


(** X2: when the session opens but cannot be destroyed, the caller sees the
    error of the destruction, whether the module call had succeeded or had
    raised an error of its own; the temporary file is removed all the
    same and the grid file is not touched. *)
Theorem destroy_error_takes_precedence kwargs e :
  validated kwargs →
  session_create w = None →
  session_destroy w = Some e →
  run kwargs =
    (Raise (LibraryError e),
     [EvTmpCreate (tmp_name w); EvSessionCreate;
      EvCallModule "grdlandmask" (build_arg_string (effective_kwargs w kwargs));
      EvSessionDestroy; EvTmpRemove (tmp_name w)]).
Proof.
  intros Hv Hc Hd. rewrite (run_validated _ _ _ Hv), Hc, Hd. reflexivity.
Qed.

(** X3: when the session cannot be created, the caller sees that error;
    the session is not destroyed, the dispatcher is not called, and the
    temporary file is removed. *)
Theorem session_create_failure kwargs e :
  validated kwargs →
  session_create w = Some e →
  run kwargs =
    (Raise (LibraryError e),
     [EvTmpCreate (tmp_name w); EvSessionCreate; EvTmpRemove (tmp_name w)]).
Proof.
  intros Hv Hc. rewrite (run_validated _ _ _ Hv), Hc. reflexivity.
Qed.

(** X4: once the grid file is open it is closed again, right before the
    temporary file is removed, whether [load] and the accessor succeed or
    raise. *)
Theorem opened_grid_always_closed kwargs h :
  validated kwargs →
  session_succeeds w (build_arg_string (effective_kwargs w kwargs)) →
  effective_outgrid w kwargs = PyStr (tmp_name w) →
  open_dataarray_result w (PyStr (tmp_name w)) = inr h →
  ∃ pre mid,
    (run kwargs).2 =
      pre ++ EvOpenDataArray (PyStr (tmp_name w)) :: EvLoad h :: mid
          ++ [EvCloseDataArray h; EvTmpRemove (tmp_name w)]
    ∧ forallb (λ ev, negb (is_grid_event ev)) pre = true.
Proof.
  intros Hv (Hc & Hm & Hd) Hg Ho.
  rewrite (run_validated _ _ _ Hv), Hg. cbn zeta. rewrite Hc, Hd, Hm.
  rewrite (proj2 (py_eq_PyStr _ _) eq_refl), Ho.
  exists [EvTmpCreate (tmp_name w); EvSessionCreate;
          EvCallModule "grdlandmask"
            (build_arg_string (effective_kwargs w kwargs));
          EvSessionDestroy].
  destruct (load_result w h) as [e | d].
  - exists []. split; reflexivity.
  - exists [EvGmtAccessor d]. split; reflexivity.
Qed.

Ltac find_open :=
  cbn; rewrite ?elem_of_cons, elem_of_nil;
  let Hin := fresh "Hin" in
  intros Hin; repeat (destruct Hin as [Hin | Hin]);
  try discriminate Hin; try contradiction; simplify_eq; done.

(** X5: the only file the call ever opens is its own temporary file, and it
    opens it only on a validated call whose session block went through and
    whose [outgrid] is the temporary file's name. *)
Theorem only_tmpfile_is_opened kwargs path :
  EvOpenDataArray path ∈ (run kwargs).2 →
  path = PyStr (tmp_name w)
  ∧ validated kwargs
  ∧ session_succeeds w (build_arg_string (effective_kwargs w kwargs))
  ∧ effective_outgrid w kwargs = PyStr (tmp_name w).
Proof.
  destruct (validated_or_missing kwargs) as [Hv | Hm].
  - rewrite (run_validated _ _ _ Hv). cbn zeta. unfold session_succeeds.
    destruct (session_create w) eqn:Hc; [find_open |].
    destruct (session_destroy w) eqn:Hd; [find_open |].
    destruct (call_module_status w _ _) eqn:Hcall; [find_open |].
    destruct (py_eq _ _) eqn:Heq; [| find_open].
    apply py_eq_PyStr in Heq.
    destruct (open_dataarray_result w _) as [e | h]; [find_open |].
    destruct (load_result w h) as [e | d]; find_open.
  - rewrite (proj1 (run_required_missing _ Hm)).
    rewrite elem_of_nil. contradiction.
Qed.

(** X6: when the caller sets [outgrid] to anything but the temporary
    file's name, the call never reads a grid: on every path its trace holds
    events of the temporary file and of the session only, and the argument
    string is built from [kwargs] exactly as passed. *)
Theorem user_outgrid_never_read kwargs v :
  validated kwargs →
  kwargs !! "G" = Some v →
  v ≠ PyStr (tmp_name w) →
  forallb (λ ev, negb (is_grid_event ev)) (run kwargs).2 = true
  ∧ dispatches (run kwargs).2 =
      match session_create w with
      | None => [("grdlandmask", build_arg_string kwargs)]
      | Some _ => []
      end.
Proof.
  intros Hv HG Hne. rewrite (run_validated _ _ _ Hv).
  rewrite (effective_kwargs_present _ _ HG), (effective_outgrid_present _ _ HG).
  cbn zeta. rewrite (proj2 (py_eq_PyStr_false _ _) Hne).
  repeat case_match; split; reflexivity.
Qed.

(** X7: the dictionary from which the argument string is built holds every
    binding of the caller's [kwargs] unchanged, and its keys are those of
    [kwargs] together with ["G"]. *)
Theorem kwargs_only_extended_at_G kwargs :
  validated kwargs →
  let kwargs' :=
    if bool_decide (kwargs !! "G" = None)
    then <["G" := PyStr (tmp_name w)]> kwargs
    else kwargs in
  kwargs ⊆ kwargs'
  ∧ dom kwargs' = {["G"]} ∪ dom kwargs
  ∧ dispatches (run kwargs).2 =
      match session_create w with
      | None => [("grdlandmask", build_arg_string kwargs')]
      | Some _ => []
      end.
Proof.
  intros Hv kwargs'. subst kwargs'. rewrite effective_kwargs_default.
  split; [| split].
  - unfold effective_kwargs. destruct (kwargs !! "G") eqn:HG; [done |].
    by apply insert_subseteq.
  - unfold effective_kwargs. destruct (kwargs !! "G") eqn:HG.
    + symmetry. apply subseteq_union_1_L, singleton_subseteq_l, elem_of_dom.
      eauto.
    + apply dom_insert_L.
  - rewrite (run_validated _ _ _ Hv). cbn zeta. repeat case_match; reflexivity.
Qed.

(** X8: leaving [outgrid] unset is the same as setting it to the name the
    temporary file gets: both calls have the same outcome and the same
    trace. *)
Theorem default_same_as_explicit_tmp_name kwargs :
  validated kwargs →
  kwargs !! "G" = None →
  run kwargs = run (<["G" := PyStr (tmp_name w)]> kwargs).
Proof.
  intros Hv HG.
  rewrite (run_validated _ _ _ Hv).
  rewrite (run_validated _ _ _ (validated_insert_G _ (PyStr (tmp_name w)) Hv)).
  assert (Hk : effective_kwargs w (<["G" := PyStr (tmp_name w)]> kwargs)
               = effective_kwargs w kwargs).
  { unfold effective_kwargs. rewrite lookup_insert_eq, HG. reflexivity. }
  assert (Hg : effective_outgrid w (<["G" := PyStr (tmp_name w)]> kwargs)
               = effective_outgrid w kwargs).
  { unfold effective_outgrid. rewrite lookup_insert_eq, HG. reflexivity. }
  rewrite Hk, Hg. reflexivity.
Qed.

(** X9: a call that returns, with a grid or with [None], had both required
    options, and its session was created, ran the module without error
    exactly once, and was destroyed without error. *)
Theorem return_certifies_success kwargs r :
  (run kwargs).1 = Return r →
  validated kwargs
  ∧ session_succeeds w (build_arg_string (effective_kwargs w kwargs))
  ∧ dispatches (run kwargs).2 =
      [("grdlandmask", build_arg_string (effective_kwargs w kwargs))].
Proof.
  destruct (validated_or_missing kwargs) as [Hv | Hm].
  - rewrite (run_validated _ _ _ Hv). cbn zeta. unfold session_succeeds.
    destruct (session_create w) eqn:Hc; [discriminate |].
    destruct (session_destroy w) eqn:Hd; [discriminate |].
    destruct (call_module_status w _ _) eqn:Hm; [discriminate |].
    repeat case_match; cbn; intros Hr; simplify_eq; done.
  - destruct (run_required_missing _ Hm) as (_ & x & Hx). rewrite Hx.
    discriminate.
Qed.

(** X10: no external operation is repeated: whatever the arguments, each
    operation (creating and removing the temporary file, creating and
    destroying the session, calling the dispatcher, opening, loading,
    inspecting and closing the grid) occurs at most once in a call. *)
Theorem no_operation_repeated kwargs :
  NoDup (operation_of <$> (grdlandmask build_arg_string w kwargs).2).
Proof.
  destruct (validated_or_missing kwargs) as [Hv | Hm].
  - rewrite (run_validated _ _ _ Hv). cbn zeta.
    repeat case_match; cbn;
      repeat (apply NoDup_cons; split;
              [rewrite ?elem_of_cons, elem_of_nil;
               let Hin := fresh "Hin" in
               intros Hin; repeat (destruct Hin as [Hin | Hin]);
               try discriminate Hin; contradiction |]);
      apply NoDup_nil_2.
  - rewrite (proj1 (run_required_missing _ Hm)). apply NoDup_nil_2.
Qed.

End Paths.

Lemma validated_kwargs_IR_none : validated kwargs_IR_none.
Proof. split; eexists; reflexivity. Defined.


(** The module call fails and the session cannot be destroyed: the caller
    sees the second error. *)
Lemma destroy_error_takes_precedence_witness :
  validated kwargs_IR
  ∧ call_module_status failing_destroy_world "grdlandmask"
      "-G/tmp/pygmt-k3v9x2ab.nc -I1 -R125/130/30/35"
    = Some "GMTCLibError: Module 'grdlandmask' failed"
  ∧ (sample failing_destroy_world kwargs_IR).1 =
      Raise (LibraryError "GMTCLibError: Failed to destroy GMT API session").
Proof.
  split; [exact validated_kwargs_IR |]. split; [reflexivity |].
  exact (f_equal fst
           (destroy_error_takes_precedence sample_build_arg_string
              failing_destroy_world kwargs_IR _ validated_kwargs_IR
              eq_refl eq_refl)).
Defined.

Lemma session_create_failure_witness :
  validated kwargs_G_file
  ∧ sample no_session_world kwargs_G_file =
      (Raise (LibraryError "GMTCLibError: Failed to create a GMT API session"),
       [EvTmpCreate "/tmp/pygmt-k3v9x2ab.nc"; EvSessionCreate;
        EvTmpRemove "/tmp/pygmt-k3v9x2ab.nc"]).
Proof.
  split; [exact validated_kwargs_G_file |].
  exact (session_create_failure sample_build_arg_string no_session_world
           kwargs_G_file _ validated_kwargs_G_file eq_refl).
Defined.

(** The grid file opens, [load] raises: the file is closed all the same. *)
Lemma opened_grid_always_closed_witness :
  validated kwargs_IR
  ∧ load_result failing_load_world [7]%Z = inl "ValueError: could not read grid"
  ∧ ∃ pre mid,
      (sample failing_load_world kwargs_IR).2 =
        pre ++ EvOpenDataArray (PyStr "/tmp/pygmt-k3v9x2ab.nc") :: EvLoad [7]%Z
            :: mid
            ++ [EvCloseDataArray [7]%Z; EvTmpRemove "/tmp/pygmt-k3v9x2ab.nc"]
      ∧ forallb (λ ev, negb (is_grid_event ev)) pre = true.
Proof.
  split; [exact validated_kwargs_IR |]. split; [reflexivity |].
  refine (opened_grid_always_closed sample_build_arg_string failing_load_world
            kwargs_IR [7]%Z validated_kwargs_IR _ eq_refl eq_refl).
  repeat split.
Defined.

Lemma only_tmpfile_is_opened_witness :
  EvOpenDataArray (PyStr "/tmp/pygmt-k3v9x2ab.nc")
    ∈ (sample calm_world kwargs_IR).2
  ∧ validated kwargs_IR
  ∧ effective_outgrid calm_world kwargs_IR = PyStr (tmp_name calm_world).
Proof.
  assert (Hin : EvOpenDataArray (PyStr "/tmp/pygmt-k3v9x2ab.nc")
                  ∈ (sample calm_world kwargs_IR).2).
  { do 4 apply list_elem_of_further. apply list_elem_of_here. }
  destruct (only_tmpfile_is_opened sample_build_arg_string calm_world
              kwargs_IR _ Hin) as (_ & Hv & _ & Hg).
  split; [exact Hin |]. split; [exact Hv | exact Hg].
Defined.

Lemma user_outgrid_never_read_witness :
  validated kwargs_G_file
  ∧ kwargs_G_file !! "G" = Some (PyStr "mask.nc")
  ∧ forallb (λ ev, negb (is_grid_event ev)) (sample calm_world kwargs_G_file).2
    = true
  ∧ dispatches (sample calm_world kwargs_G_file).2 =
      [("grdlandmask", "-Gmask.nc -I1 -R125/130/30/35")].
Proof.
  assert (HG : kwargs_G_file !! "G" = Some (PyStr "mask.nc")) by reflexivity.
  split; [exact validated_kwargs_G_file |]. split; [exact HG |].
  refine (user_outgrid_never_read sample_build_arg_string calm_world
            kwargs_G_file (PyStr "mask.nc") validated_kwargs_G_file HG _).
  discriminate.
Defined.

Lemma kwargs_only_extended_at_G_witness :
  validated kwargs_IR
  ∧ kwargs_IR ⊆ <["G" := PyStr "/tmp/pygmt-k3v9x2ab.nc"]> kwargs_IR
  ∧ dispatches (sample calm_world kwargs_IR).2 =
      [("grdlandmask", "-G/tmp/pygmt-k3v9x2ab.nc -I1 -R125/130/30/35")].
Proof.
  destruct (kwargs_only_extended_at_G sample_build_arg_string calm_world
              kwargs_IR validated_kwargs_IR) as (Hsub & _ & Hd).
  split; [exact validated_kwargs_IR |]. split; [exact Hsub | exact Hd].
Defined.

Lemma default_same_as_explicit_tmp_name_witness :
  validated kwargs_IR
  ∧ kwargs_IR !! "G" = None
  ∧ sample calm_world kwargs_IR = sample calm_world kwargs_G_tmp.
Proof.
  assert (HG : kwargs_IR !! "G" = None) by reflexivity.
  split; [exact validated_kwargs_IR |]. split; [exact HG |].
  exact (default_same_as_explicit_tmp_name sample_build_arg_string calm_world
           kwargs_IR validated_kwargs_IR HG).
Defined.

Lemma return_certifies_success_witness :
  (sample calm_world kwargs_G_file).1 = Return None
  ∧ validated kwargs_G_file
  ∧ dispatches (sample calm_world kwargs_G_file).2 =
      [("grdlandmask", "-Gmask.nc -I1 -R125/130/30/35")].
Proof.
  assert (Hr : (sample calm_world kwargs_G_file).1 = Return None) by reflexivity.
  destruct (return_certifies_success sample_build_arg_string calm_world
              kwargs_G_file None Hr) as (Hv & _ & Hd).
  split; [exact Hr |]. split; [exact Hv | exact Hd].
Defined.

End Grdlandmask.
